(** * Tailwind configuration documents of maternalhrss

    The repository holds four CommonJS configuration documents for the
    Tailwind CSS generator: the two documents stored in
    [src/tailwind.config.js] and the documents [src/unnamed/part_000] and
    [src/unnamed/part_001].  Each one is a single statement
    [module.exports = { ... }] whose right-hand side is built from string
    literals, array literals, object literals and, in one place, the call
    [require("daisyui")].

    The development embeds that fragment of JavaScript (syntax, values, an
    evaluator with the host's module resolver as a parameter, the assignment
    to [module.exports]), transcribes the four documents, and proves the
    properties the specification states about them. *)

From Stdlib Require Import String Ascii List Bool PeanoNat NArith Lia DecimalString.
Import ListNotations.
Open Scope string_scope.
Open Scope list_scope.

Set Warnings "-register-all".

(* ================================================================== *)
(** ** The JavaScript fragment the documents are written in *)
(* ================================================================== *)

Module JS.

(** A property name of an object literal, in the three forms the documents
    use: an identifier ([primary]), a quoted string (['primary-dark'],
    ['128']) and a numeric literal ([50]). *)
Inductive key : Type :=
| KId (s : string)
| KStr (s : string)
| KNum (n : N).

(** The property name a key denotes: JavaScript property names are strings,
    a numeric literal is converted to its decimal form. *)
Definition key_name (k : key) : string :=
  match k with
  | KId s => s
  | KStr s => s
  | KNum n => NilEmpty.string_of_uint (N.to_uint n)
  end.

(** Expressions.  [Num] is part of the fragment although the documents use
    numeric literals only as property names. *)
Inductive expr : Type :=
| Str (s : string)
| Num (n : N)
| Arr (es : list expr)
| Obj (ps : list (key * expr))
| Call (f : string) (args : list expr).

(** Values.  [VNative] is an object owned by the host (what a plugin module
    exports), known only by a reference. *)
Inductive value : Type :=
| VStr (s : string)
| VNum (n : N)
| VArr (vs : list value)
| VObj (ps : list (string * value))
| VNative (ref : string).

(** The host's module resolver behind [require]: [None] when the module
    cannot be found (Node throws). *)
Definition host : Type := string -> option value.

(** Defining a property: a name already present keeps its place and takes
    the new value, a new name goes last.  Properties are kept in the order
    of definition; the order in which JavaScript enumerates integer-like
    names is not modelled, properties being read by name only. *)
Fixpoint define_prop (ps : list (string * value)) (k : string) (v : value)
  : list (string * value) :=
  match ps with
  | [] => [(k, v)]
  | (k', v') :: r =>
      if String.eqb k' k then (k', v) :: r else (k', v') :: define_prop r k v
  end.

Definition build_object (kvs : list (string * value)) : list (string * value) :=
  fold_left (fun acc kv => define_prop acc (fst kv) (snd kv)) kvs [].

(** Evaluation, left to right.  The only function in scope is [require];
    it wants a string as first argument and hands it to the host. *)
Fixpoint eval (h : host) (e : expr) {struct e} : option value :=
  match e with
  | Str s => Some (VStr s)
  | Num n => Some (VNum n)
  | Arr es =>
      option_map VArr
        ((fix eval_elems (l : list expr) : option (list value) :=
            match l with
            | [] => Some []
            | x :: r =>
                match eval h x with
                | Some v => option_map (cons v) (eval_elems r)
                | None => None
                end
            end) es)
  | Obj ps =>
      option_map (fun kvs => VObj (build_object kvs))
        ((fix eval_props (l : list (key * expr)) : option (list (string * value)) :=
            match l with
            | [] => Some []
            | (k, x) :: r =>
                match eval h x with
                | Some v => option_map (cons (key_name k, v)) (eval_props r)
                | None => None
                end
            end) ps)
  | Call f args =>
      match
        (fix eval_args (l : list expr) : option (list value) :=
           match l with
           | [] => Some []
           | x :: r =>
               match eval h x with
               | Some v => option_map (cons v) (eval_args r)
               | None => None
               end
           end) args
      with
      | Some (VStr m :: _) => if String.eqb f "require" then h m else None
      | _ => None
      end
  end.

(** The module object a CommonJS file is run with. *)
Record module_obj : Type := { exports : value }.

(** The one statement the documents consist of. *)
Inductive stmt : Type :=
| SetExports (e : expr).

Definition rhs (s : stmt) : expr :=
  match s with SetExports e => e end.

(** [module.exports = e]: the old value of [exports] is dropped. *)
Definition exec (h : host) (s : stmt) (m : module_obj) : option module_obj :=
  match s with
  | SetExports e =>
      match eval h e with
      | Some v => Some {| exports := v |}
      | None => None
      end
  end.

(** Loading a document: the module starts with an empty [exports] object. *)
Definition load (h : host) (s : stmt) : option value :=
  option_map exports (exec h s {| exports := VObj [] |}).

(** Property access. *)
Fixpoint lookup (ps : list (string * value)) (k : string) : option value :=
  match ps with
  | [] => None
  | (k', v) :: r => if String.eqb k' k then Some v else lookup r k
  end.

Definition get (v : value) (k : string) : option value :=
  match v with
  | VObj ps => lookup ps k
  | _ => None
  end.

Fixpoint get_path (v : value) (p : list string) : option value :=
  match p with
  | [] => Some v
  | k :: r =>
      match get v k with
      | Some v' => get_path v' r
      | None => None
      end
  end.

Definition keys (v : value) : list string :=
  match v with
  | VObj ps => map fst ps
  | _ => []
  end.

(** The calls an expression contains, with their argument expressions. *)
Fixpoint calls (e : expr) : list (string * list expr) :=
  match e with
  | Str _ | Num _ => []
  | Arr es => flat_map calls es
  | Obj ps => flat_map (fun p => calls (snd p)) ps
  | Call f args => (f, args) :: flat_map calls args
  end.

End JS.

(* ================================================================== *)
(** ** The four configuration documents *)
(* ================================================================== *)

Module Config.
Import JS.

(** [src/tailwind.config.js], first document (lines 2 to 9). *)
Definition tailwind_config : stmt :=
  SetExports (Obj
    [ (KId "content", Arr [Str "./templates/**/*.html"]);
      (KId "darkMode", Str "media");
      (KId "theme", Obj [ (KId "extend", Obj []) ]);
      (KId "plugins", Arr [Call "require" [Str "daisyui"]]) ]).

(** [src/tailwind.config.js], second document (lines 12 to 28). *)
Definition tailwind_config_colors : stmt :=
  SetExports (Obj
    [ (KId "content",
        Arr [ Str "./templates/**/*.html";
              Str "./apps/**/*.html";
              Str "./apps/**/templates/**/*.html" ]);
      (KId "theme", Obj
        [ (KId "extend", Obj
            [ (KId "colors", Obj
                [ (KId "primary", Str "#2E7D32");
                  (KStr "primary-dark", Str "#1B5E20");
                  (KId "accent", Str "#4CAF50") ]) ]) ]);
      (KId "plugins", Arr []) ]).

(** [src/unnamed/part_000]. *)
Definition part_000 : stmt :=
  SetExports (Obj
    [ (KId "content",
        Arr [ Str "./templates/**/*.html";
              Str "./apps/**/*.html";
              Str "./apps/**/templates/**/*.html";
              Str "./static/js/**/*.js" ]);
      (KId "theme", Obj
        [ (KId "extend", Obj
            [ (KId "colors", Obj
                [ (KId "primary", Obj
                    [ (KNum 50, Str "#f0fdf4");
                      (KNum 100, Str "#dcfce7");
                      (KNum 200, Str "#bbf7d0");
                      (KNum 300, Str "#86efac");
                      (KNum 400, Str "#4ade80");
                      (KNum 500, Str "#22c55e");
                      (KNum 600, Str "#16a34a");
                      (KNum 700, Str "#15803d");
                      (KNum 800, Str "#166534");
                      (KNum 900, Str "#14532d") ]);
                  (KId "danger", Obj
                    [ (KNum 600, Str "#dc2626");
                      (KNum 700, Str "#b91c1c") ]) ]);
              (KId "fontFamily", Obj
                [ (KId "sans",
                    Arr [Str "Inter"; Str "system-ui"; Str "sans-serif"]) ]) ]) ]);
      (KId "plugins", Arr []) ]).

(** [src/unnamed/part_001]. *)
Definition part_001 : stmt :=
  SetExports (Obj
    [ (KId "content",
        Arr [ Str "./templates/**/*.html";
              Str "./apps/**/*.html";
              Str "./static_src/**/*.js";
              Str "./templates/partials/**/*.html" ]);
      (KId "theme", Obj
        [ (KId "extend", Obj
            [ (KId "colors", Obj
                [ (KId "primary", Obj
                    [ (KId "DEFAULT", Str "#2E7D32");
                      (KNum 50, Str "#f0fdf4");
                      (KNum 100, Str "#dcfce7");
                      (KNum 200, Str "#bbf7d0");
                      (KNum 300, Str "#86efac");
                      (KNum 400, Str "#4ade80");
                      (KNum 500, Str "#22c55e");
                      (KNum 600, Str "#16a34a");
                      (KNum 700, Str "#15803d");
                      (KNum 800, Str "#166534");
                      (KNum 900, Str "#14532d") ]);
                  (KId "secondary", Str "#43A047");
                  (KId "danger", Str "#D32F2F");
                  (KId "warning", Str "#F57C00");
                  (KId "info", Str "#1976D2");
                  (KId "muted", Str "#6B7280") ]);
              (KId "spacing", Obj
                [ (KStr "128", Str "32rem");
                  (KStr "144", Str "36rem") ]);
              (KId "fontFamily", Obj
                [ (KId "sans",
                    Arr [Str "Inter"; Str "system-ui"; Str "sans-serif"]) ]) ]) ]);
      (KId "plugins", Arr []) ]).

(** The documents that register no plugin. *)
Definition plain_documents : list stmt :=
  [tailwind_config_colors; part_000; part_001].

Definition documents : list stmt :=
  tailwind_config :: plain_documents.

(** A host in which the [daisyui] package is installed. *)
Definition daisyui_host : host :=
  fun m => if String.eqb m "daisyui" then Some (VNative "daisyui") else None.

(** A host in which another build of the package is installed. *)
Definition patched_host : host :=
  fun m => if String.eqb m "daisyui" then Some (VNative "daisyui-patched") else None.

(** A host that resolves every name to the [daisyui] package. *)
Definition lenient_host : host := fun _ => Some (VNative "daisyui").

(** A host with no package installed. *)
Definition bare_host : host := fun _ => None.

End Config.

(* ================================================================== *)
(** ** What the styling tool reads in a configuration *)
(* ================================================================== *)

Module Shape.
Import JS.

(** *** Strings *)

Definition starts_with (p s : string) : bool := String.prefix p s.

Definition ends_with (suf s : string) : bool :=
  let n := String.length s in
  let m := String.length suf in
  Nat.leb m n && String.eqb (String.substring (n - m) m s) suf.

Fixpoint all_chars (f : ascii -> bool) (s : string) : bool :=
  match s with
  | EmptyString => true
  | String c r => f c && all_chars f r
  end.

Definition in_range (lo hi c : ascii) : bool :=
  N.leb (N_of_ascii lo) (N_of_ascii c) && N.leb (N_of_ascii c) (N_of_ascii hi).

Definition is_digit (c : ascii) : bool := in_range "0" "9" c.

Definition is_letter (c : ascii) : bool :=
  in_range "a" "z" c || in_range "A" "Z" c.

Definition is_hex_digit (c : ascii) : bool :=
  is_digit c || in_range "a" "f" c || in_range "A" "F" c.

(** ['#'] followed by exactly six hexadecimal digits. *)
Definition is_hex_color (s : string) : bool :=
  match s with
  | String "#" r => Nat.eqb (String.length r) 6 && all_chars is_hex_digit r
  | _ => false
  end.

(** A path that starts at the project root and ends in a file-extension
    pattern. *)
Definition is_glob (s : string) : bool :=
  starts_with "./" s && (ends_with "*.html" s || ends_with "*.js" s).

(** A font family name: letters, digits, hyphens and spaces. *)
Definition is_font_name (s : string) : bool :=
  negb (String.eqb s EmptyString)
  && all_chars (fun c => is_letter c || is_digit c
                         || Ascii.eqb c "-" || Ascii.eqb c " ") s.

(** A string of decimal digits. *)
Definition is_digits (s : string) : bool :=
  negb (String.eqb s EmptyString) && all_chars is_digit s.

(** A CSS length in [rem]: decimal digits followed by the unit. *)
Definition is_rem_length (s : string) : bool :=
  ends_with "rem" s
  && is_digits (String.substring 0 (String.length s - 3) s).

(** *** Shapes of values *)

Definition is_string (v : value) : bool :=
  match v with VStr _ => true | _ => false end.

Definition is_mapping (v : value) : bool :=
  match v with VObj _ => true | _ => false end.

Definition is_sequence (v : value) : bool :=
  match v with VArr _ => true | _ => false end.

Definition is_string_sequence (v : value) : bool :=
  match v with VArr vs => forallb is_string vs | _ => false end.

(** A mapping of token categories, each one a mapping itself. *)
Definition is_nested_mapping (v : value) : bool :=
  match v with
  | VObj ps => forallb (fun p => is_mapping (snd p)) ps
  | _ => false
  end.

Definition mem (k : string) (l : list string) : bool :=
  existsb (String.eqb k) l.

Definition recognized_keys : list string :=
  ["content"; "theme"; "darkMode"; "plugins"].

Definition token_categories : list string :=
  ["colors"; "fontFamily"; "spacing"].

Definition has (v : value) (p : list string) (ok : value -> bool) : bool :=
  match get_path v p with
  | Some x => ok x
  | None => false
  end.

(** The configuration shape of the tool's contract. *)
Definition valid_config (v : value) : bool :=
  is_mapping v
  && forallb (fun k => mem k recognized_keys) (keys v)
  && has v ["content"] is_string_sequence
  && has v ["theme"; "extend"] is_nested_mapping
  && has v ["plugins"] is_sequence.

(** The values at the leaves of a value: everything that is not a mapping
    or a sequence. *)
Fixpoint leaf_values (v : value) : list value :=
  match v with
  | VObj ps => flat_map (fun p => leaf_values (snd p)) ps
  | VArr vs => flat_map leaf_values vs
  | _ => [v]
  end.

(** The colors a configuration adds, flat or as shades. *)
Definition color_values (cfg : value) : list value :=
  match get_path cfg ["theme"; "extend"; "colors"] with
  | Some colors => leaf_values colors
  | None => []
  end.

(** *** Literals of a document, with the place they stand at *)

Inductive seg : Type :=
| Field (k : string)
| Index (i : nat)
| Arg (f : string) (i : nat).

Definition under (s : seg) (l : list seg * expr) : list seg * expr :=
  (s :: fst l, snd l).

Fixpoint literals (e : expr) : list (list seg * expr) :=
  match e with
  | Str _ | Num _ => [([], e)]
  | Arr es =>
      (fix elems (i : nat) (l : list expr) : list (list seg * expr) :=
         match l with
         | [] => []
         | x :: r => map (under (Index i)) (literals x) ++ elems (S i) r
         end) 0 es
  | Obj ps =>
      (fix props (l : list (key * expr)) : list (list seg * expr) :=
         match l with
         | [] => []
         | (k, x) :: r => map (under (Field (key_name k))) (literals x) ++ props r
         end) ps
  | Call f args =>
      (fix actuals (i : nat) (l : list expr) : list (list seg * expr) :=
         match l with
         | [] => []
         | x :: r => map (under (Arg f i)) (literals x) ++ actuals (S i) r
         end) 0 args
  end.

Inductive kind : Type :=
| Glob | HexColor | FontName | Spacing | Strategy | ModuleName.

(** The kind of literal the tool reads at a place of the configuration. *)
Definition kind_at (p : list seg) : option kind :=
  match p with
  | [Field a] => if String.eqb a "darkMode" then Some Strategy else None
  | [Field a; Index _] => if String.eqb a "content" then Some Glob else None
  | [Field a; Index _; Arg f 0] =>
      if String.eqb a "plugins" && String.eqb f "require"
      then Some ModuleName else None
  | Field a :: Field b :: Field c :: rest =>
      if String.eqb a "theme" && String.eqb b "extend" then
        if String.eqb c "colors" then
          match rest with
          | [Field _] | [Field _; Field _] => Some HexColor
          | _ => None
          end
        else if String.eqb c "fontFamily" then
          match rest with
          | [Field _; Index _] => Some FontName
          | _ => None
          end
        else if String.eqb c "spacing" then
          match rest with
          | [Field _] => Some Spacing
          | _ => None
          end
        else None
      else None
  | _ => None
  end.

Definition str_is (f : string -> bool) (e : expr) : bool :=
  match e with Str s => f s | _ => false end.

(** A numeric value: a number, or at least a string of digits only. *)
Definition is_numeric (e : expr) : bool :=
  match e with
  | Num _ => true
  | Str s => is_digits s
  | _ => false
  end.

(** The four kinds of literal of the specification's data model, spacing
    values being numeric. *)
Definition stated_kind_ok (l : list seg * expr) : bool :=
  match kind_at (fst l) with
  | Some Glob => str_is is_glob (snd l)
  | Some HexColor => str_is is_hex_color (snd l)
  | Some FontName => str_is is_font_name (snd l)
  | Some Spacing => is_numeric (snd l)
  | _ => false
  end.

(** The kinds of literal the documents hold. *)
Definition has_kind (k : kind) (e : expr) : bool :=
  match k with
  | Glob => str_is is_glob e
  | HexColor => str_is is_hex_color e
  | FontName => str_is is_font_name e
  | Spacing => str_is is_rem_length e
  | Strategy => str_is (String.eqb "media") e
  | ModuleName => str_is (String.eqb "daisyui") e
  end.

Definition kind_ok (l : list seg * expr) : bool :=
  match kind_at (fst l) with
  | Some k => has_kind k (snd l)
  | None => false
  end.

(** The values a document adds to the spacing scale, with their keys. *)
Definition spacing_entries (e : expr) : list (string * expr) :=
  flat_map
    (fun l =>
       match fst l with
       | [Field a; Field b; Field c; Field k] =>
           if String.eqb a "theme" && String.eqb b "extend"
              && String.eqb c "spacing"
           then [(k, snd l)] else []
       | _ => []
       end)
    (literals e).

(** *** Theme resolution *)

(** Modelled from the spec: the merge of a document's theme into the
    tool's default design tokens is done by the external tool, which is not
    part of this repository.  The glossary describes a theme extension as
    "a declarative override/addition to the external tool's default
    design-token set"; accordingly a token found under [theme.extend] wins,
    a category placed directly under [theme] replaces the default category
    as a whole, and every other token is the default one. *)
Definition resolve_token (defaults theme : value) (c t : string)
  : option value :=
  match get_path theme ["extend"; c; t] with
  | Some v => Some v
  | None =>
      match (if String.eqb c "extend" then None else get theme c) with
      | Some replacement => get replacement t
      | None => get_path defaults [c; t]
      end
  end.

End Shape.

(* ================================================================== *)
(** ** Reading a configuration back *)
(* ================================================================== *)

Module Reading.
Import JS Shape.

(** Evaluating a list of expressions from left to right, as the array
    literal and the argument list do. *)
Fixpoint eval_each (h : host) (l : list expr) : option (list value) :=
  match l with
  | [] => Some []
  | x :: r =>
      match eval h x with
      | Some v => option_map (cons v) (eval_each h r)
      | None => None
      end
  end.

(** Evaluating the properties of an object literal from left to right. *)
Fixpoint eval_fields (h : host) (l : list (key * expr))
  : option (list (string * value)) :=
  match l with
  | [] => Some []
  | (k, x) :: r =>
      match eval h x with
      | Some v => option_map (cons (key_name k, v)) (eval_fields h r)
      | None => None
      end
  end.

(** The literals of a list of expressions, the [i]-th one placed under
    [mk i]. *)
Fixpoint literals_from (mk : nat -> seg) (i : nat) (l : list expr)
  : list (list seg * expr) :=
  match l with
  | [] => []
  | x :: r => map (under (mk i)) (literals x) ++ literals_from mk (S i) r
  end.

(** The literals of the properties of an object literal. *)
Fixpoint literals_fields (l : list (key * expr)) : list (list seg * expr) :=
  match l with
  | [] => []
  | (k, x) :: r =>
      map (under (Field (key_name k))) (literals x) ++ literals_fields r
  end.

Definition names (ps : list (key * expr)) : list string :=
  map (fun p => key_name (fst p)) ps.

Fixpoint distinct_names (l : list string) : bool :=
  match l with
  | [] => true
  | k :: r => negb (mem k r) && distinct_names r
  end.

(** No object literal of the expression names a property twice. *)
Fixpoint distinct_keys (e : expr) : bool :=
  match e with
  | Str _ | Num _ => true
  | Arr es => forallb distinct_keys es
  | Obj ps =>
      distinct_names (map (fun p => key_name (fst p)) ps)
      && forallb (fun p => distinct_keys (snd p)) ps
  | Call _ args => forallb distinct_keys args
  end.

(** Reading a value at a place: a property by name, an element by index.
    The argument of a call cannot be read from the value of the call. *)
Fixpoint value_at (v : value) (p : list seg) : option value :=
  match p with
  | [] => Some v
  | Field k :: r =>
      match get v k with
      | Some x => value_at x r
      | None => None
      end
  | Index i :: r =>
      match v with
      | VArr vs =>
          match nth_error vs i with
          | Some x => value_at x r
          | None => None
          end
      | _ => None
      end
  | Arg _ _ :: _ => None
  end.

Definition readable (p : list seg) : bool :=
  forallb (fun s => match s with Arg _ _ => false | _ => true end) p.

(** Reading back what an expression writes: each literal at a readable
    place is the value found at that place. *)
Definition reads_back (e : expr) : Prop :=
  forall h v, distinct_keys e = true -> eval h e = Some v ->
  forall p l, In (p, l) (literals e) -> readable p = true ->
  value_at v p = eval h l.

(** The decimal form of a number, as a numeric property name has it. *)
Definition decimal (n : N) : string := key_name (KNum n).

(** The shades of the tool's color scale. *)
Definition shade_scale : list N :=
  [50; 100; 200; 300; 400; 500; 600; 700; 800; 900]%N.

Definition is_shade_name (k : string) : bool :=
  String.eqb k "DEFAULT" || mem k (map decimal shade_scale).

(** The property names of the shade mappings under [theme.extend.colors]. *)
Definition shade_names (cfg : value) : list string :=
  match get_path cfg ["theme"; "extend"; "colors"] with
  | Some (VObj colors) => flat_map (fun c => keys (snd c)) colors
  | _ => []
  end.

(** The font stacks under [theme.extend.fontFamily]. *)
Definition font_stacks (cfg : value) : list value :=
  match get_path cfg ["theme"; "extend"; "fontFamily"] with
  | Some (VObj families) => map snd families
  | _ => []
  end.

(** The entries of [content]. *)
Definition content_entries (cfg : value) : list value :=
  match get cfg "content" with
  | Some (VArr entries) => entries
  | _ => []
  end.

End Reading.

(* ================================================================== *)
(** ** General facts about the fragment *)
(* ================================================================== *)

Module Facts.
Import JS Config Shape.

(** Case analysis on membership in a concrete list. *)
Ltac each_member H :=
  simpl in H; repeat (destruct H as [<- | H]); [.. | contradiction].

(** Runs a document under a host that resolves [daisyui] as [Hp] says. *)
Ltac run_document Hp :=
  unfold load, exec; cbn; rewrite ?Hp; cbn.

(** An expression without calls evaluates to the same value under every
    host. *)
Lemma eval_without_calls :
  forall e h1 h2, calls e = [] -> eval h1 e = eval h2 e.
Proof.
  fix IH 1.
  intros [s | n | es | ps | f args] h1 h2 Hc; simpl in *.
  - reflexivity.
  - reflexivity.
  - f_equal.
    induction es as [| x r IHr]; [reflexivity |].
    simpl in Hc. apply app_eq_nil in Hc as [Hx Hr].
    rewrite (IH x h1 h2 Hx), (IHr Hr). reflexivity.
  - f_equal.
    induction ps as [| [k x] r IHr]; [reflexivity |].
    simpl in Hc. apply app_eq_nil in Hc as [Hx Hr].
    rewrite (IH x h1 h2 Hx), (IHr Hr). reflexivity.
  - discriminate.
Qed.

(** An expression without calls always has a value. *)
Lemma eval_total_without_calls :
  forall e h, calls e = [] -> exists v, eval h e = Some v.
Proof.
  fix IH 1.
  intros [s | n | es | ps | f args] h Hc; simpl in *.
  - eexists; reflexivity.
  - eexists; reflexivity.
  - assert (exists vs,
      (fix eval_elems (l : list expr) : option (list value) :=
         match l with
         | [] => Some []
         | x :: r =>
             match eval h x with
             | Some v => option_map (cons v) (eval_elems r)
             | None => None
             end
         end) es = Some vs) as [vs ->].
    { induction es as [| x r IHr]; [eexists; reflexivity |].
      simpl in Hc. apply app_eq_nil in Hc as [Hx Hr].
      destruct (IH x h Hx) as [v ->]. destruct (IHr Hr) as [vs ->].
      eexists; reflexivity. }
    eexists; reflexivity.
  - assert (exists kvs,
      (fix eval_props (l : list (key * expr))
         : option (list (string * value)) :=
         match l with
         | [] => Some []
         | (k, x) :: r =>
             match eval h x with
             | Some v => option_map (cons (key_name k, v)) (eval_props r)
             | None => None
             end
         end) ps = Some kvs) as [kvs ->].
    { induction ps as [| [k x] r IHr]; [eexists; reflexivity |].
      simpl in Hc. apply app_eq_nil in Hc as [Hx Hr].
      destruct (IH x h Hx) as [v ->]. destruct (IHr Hr) as [kvs ->].
      eexists; reflexivity. }
    eexists; reflexivity.
  - discriminate.
Qed.

(** The assignment does not read the module it writes to. *)
Lemma exec_ignores_module :
  forall h s m1 m2, exec h s m1 = exec h s m2.
Proof. intros h [e] m1 m2. reflexivity. Qed.

Lemma load_eval :
  forall h s, load h s = eval h (rhs s).
Proof.
  intros h [e]. unfold load, exec. simpl.
  destruct (eval h e); reflexivity.
Qed.

Lemma lookup_keys :
  forall ps k v, lookup ps k = Some v -> In k (map fst ps).
Proof.
  induction ps as [| [k' v'] r IH]; intros k v H; simpl in *.
  - discriminate.
  - destruct (String.eqb_spec k' k) as [-> | _].
    + now left.
    + right. eapply IH; eassumption.
Qed.

(** With nothing but [extend] under [theme], a token the extension does not
    name resolves to the default. *)
Lemma resolve_frame :
  forall defaults theme c t,
    (forall k, In k (keys theme) -> k = "extend") ->
    get_path theme ["extend"; c; t] = None ->
    resolve_token defaults theme c t = get_path defaults [c; t].
Proof.
  intros defaults theme c t Hk Hnone.
  unfold resolve_token. rewrite Hnone.
  destruct (String.eqb_spec c "extend") as [-> | Hc]; [reflexivity |].
  destruct (get theme c) as [r |] eqn:Hg; [| reflexivity].
  exfalso. apply Hc, Hk.
  destruct theme; simpl in Hg; try discriminate.
  eapply lookup_keys; eassumption.
Qed.

Lemma resolve_extended :
  forall defaults theme c t v,
    get_path theme ["extend"; c; t] = Some v ->
    resolve_token defaults theme c t = Some v.
Proof.
  intros defaults theme c t v H. unfold resolve_token. now rewrite H.
Qed.

(** Every document other than the first is free of calls. *)
Lemma plain_documents_without_calls :
  forall d, In d plain_documents -> calls (rhs d) = [].
Proof.
  intros d Hd. simpl in Hd.
  repeat (destruct Hd as [<- | Hd]; [reflexivity |]). contradiction.
Qed.

(** The documents that register no plugin export a value under every
    host, also one with no package installed. *)
Lemma plain_documents_load :
  forall h d, In d plain_documents -> exists cfg, load h d = Some cfg.
Proof.
  intros h d Hd. rewrite load_eval.
  apply eval_total_without_calls.
  now apply plain_documents_without_calls.
Qed.

(** The first document of [tailwind.config.js] exports nothing when the
    plugin cannot be resolved. *)
Lemma tailwind_config_needs_daisyui :
  forall h, h "daisyui" = None -> load h tailwind_config = None.
Proof. intros h Hn. run_document Hn. reflexivity. Qed.

End Facts.

(* ================================================================== *)
(** ** The properties of the specification *)
(* ================================================================== *)

Module Claims.
Import JS Config Shape Facts.

(** C1: every configuration object the documents export has the shape of
    the styling tool's contract: a mapping whose keys are among [content],
    [theme], [darkMode] and [plugins], with [content] a sequence of strings,
    [theme.extend] a nested mapping and [plugins] a sequence. *)
Theorem exported_config_valid :
  forall (h : host) (p : value), h "daisyui" = Some p ->
  forall d, In d documents ->
  exists cfg, load h d = Some cfg /\ valid_config cfg = true.
Proof.
  intros h p Hp d Hd.
  each_member Hd; run_document Hp; eexists; split; reflexivity.
Qed.

Lemma exported_config_valid_witness :
  exists cfg, load daisyui_host tailwind_config = Some cfg
              /\ valid_config cfg = true.
Proof.
  apply (exported_config_valid daisyui_host (VNative "daisyui")).
  - reflexivity.
  - simpl. left. reflexivity.
Defined.

(** C2, as stated, fails: the first document of [tailwind.config.js] holds
    a function call, [require("daisyui")], so not every document is free of
    calls. *)
Lemma documents_not_all_literal :
  ~ (forall d, In d documents -> calls (rhs d) = []).
Proof.
  intros H. specialize (H tailwind_config (or_introl eq_refl)).
  discriminate H.
Qed.

(** C2, amended: the three documents that register no plugin contain no
    call at all; the first document of [tailwind.config.js] contains exactly
    one, [require] applied to the string literal ["daisyui"]. *)
Theorem calls_of_documents :
  forall d, In d documents ->
    (In d plain_documents /\ calls (rhs d) = [])
    \/ (d = tailwind_config
        /\ calls (rhs d) = [("require", [Str "daisyui"])]).
Proof.
  intros d Hd. destruct Hd as [<- | Hd].
  - right. split; reflexivity.
  - left. split; [assumption |].
    now apply plain_documents_without_calls.
Qed.

Lemma calls_of_documents_witness :
  (In tailwind_config plain_documents /\ calls (rhs tailwind_config) = [])
  \/ (tailwind_config = tailwind_config
      /\ calls (rhs tailwind_config) = [("require", [Str "daisyui"])]).
Proof.
  apply (calls_of_documents tailwind_config).
  simpl. left. reflexivity.
Defined.

(** C3, as stated, fails: [part_001] adds ['32rem'] to the spacing scale,
    a string with a unit and not a number, and the [darkMode] value of the
    first document is a literal of none of the four stated kinds. *)
Lemma spacing_value_not_numeric :
  ~ (forall d, In d documents ->
     forall k e, In (k, e) (spacing_entries (rhs d)) -> is_numeric e = true)
  /\ ~ (forall d, In d documents ->
        forall l, In l (literals (rhs d)) -> stated_kind_ok l = true).
Proof.
  split; intros H.
  - specialize (H part_001).
    assert (Hd : In part_001 documents) by (simpl; tauto).
    specialize (H Hd "128" (Str "32rem") (or_introl eq_refl)).
    discriminate H.
  - specialize (H tailwind_config (or_introl eq_refl)
                  ([Field "darkMode"], Str "media")).
    assert (Hl : In ([Field "darkMode"], Str "media")
                    (literals (rhs tailwind_config))) by (simpl; tauto).
    specialize (H Hl). discriminate H.
Qed.

(** C3, amended: every literal value of every document is a string of the
    kind its place calls for: a glob pattern in [content], a hex color under
    [theme.extend.colors], a font name under [theme.extend.fontFamily], a
    rem length (decimal digits followed by [rem]) under
    [theme.extend.spacing], the selector ["media"] at [darkMode], the module
    name ["daisyui"] as the argument of [require] in [plugins]. *)
Theorem literal_kinds :
  forall d, In d documents ->
  forall p e, In (p, e) (literals (rhs d)) ->
  exists k s, kind_at p = Some k /\ e = Str s /\ has_kind k e = true.
Proof.
  intros d Hd p e Hin.
  assert (Hall : forallb kind_ok (literals (rhs d)) = true)
    by (each_member Hd; reflexivity).
  rewrite forallb_forall in Hall. specialize (Hall _ Hin).
  unfold kind_ok in Hall. simpl in Hall.
  destruct (kind_at p) as [k |]; [| discriminate].
  exists k. destruct e as [s | | | |];
    try (destruct k; discriminate Hall).
  exists s. repeat split. exact Hall.
Qed.

Lemma literal_kinds_witness :
  exists k s,
    kind_at [Field "theme"; Field "extend"; Field "spacing"; Field "128"]
      = Some k
    /\ Str "32rem" = Str s /\ has_kind k (Str "32rem") = true.
Proof.
  apply (literal_kinds part_001).
  - simpl. right. right. right. left. reflexivity.
  - vm_compute. do 20 right. left. reflexivity.
Defined.

(** The keys [part_001] adds to the spacing scale are numeric, the values
    are rem lengths. *)
Lemma spacing_entries_part_001 :
  spacing_entries (rhs part_001) = [("128", Str "32rem"); ("144", Str "36rem")]
  /\ forallb (fun kv => is_digits (fst kv) && str_is is_rem_length (snd kv))
       (spacing_entries (rhs part_001)) = true.
Proof. split; reflexivity. Qed.

(** C4: a document that specifies [darkMode] gives it the strategy selector
    ["media"]. *)
Theorem darkMode_is_media :
  forall (h : host) (p : value), h "daisyui" = Some p ->
  forall d, In d documents ->
  exists cfg, load h d = Some cfg
    /\ forall v, get cfg "darkMode" = Some v -> v = VStr "media".
Proof.
  intros h p Hp d Hd.
  each_member Hd; run_document Hp; eexists; (split; [reflexivity |]);
    cbn; intros v Hv; congruence.
Qed.

Lemma darkMode_is_media_witness :
  exists cfg, load daisyui_host tailwind_config = Some cfg
    /\ forall v, get cfg "darkMode" = Some v -> v = VStr "media".
Proof.
  apply (darkMode_is_media daisyui_host (VNative "daisyui")).
  - reflexivity.
  - simpl. left. reflexivity.
Defined.

(** The first document of [tailwind.config.js] does specify [darkMode]. *)
Lemma tailwind_config_darkMode :
  forall h p, h "daisyui" = Some p ->
  exists cfg, load h tailwind_config = Some cfg
    /\ get cfg "darkMode" = Some (VStr "media").
Proof.
  intros h p Hp. run_document Hp. eexists; split; reflexivity.
Qed.

(** C5: every entry of every [content] sequence is a glob pattern string
    that begins with ["./"] and ends with ["*.html"] or ["*.js"]. *)
Theorem content_entries_are_globs :
  forall (h : host) (p : value), h "daisyui" = Some p ->
  forall d, In d documents ->
  exists cfg entries,
    load h d = Some cfg
    /\ get cfg "content" = Some (VArr entries)
    /\ Forall (fun e => exists s, e = VStr s
                         /\ starts_with "./" s = true
                         /\ (ends_with "*.html" s = true
                             \/ ends_with "*.js" s = true)) entries.
Proof.
  intros h p Hp d Hd.
  each_member Hd; run_document Hp; do 2 eexists;
    (split; [reflexivity |]); (split; [reflexivity |]);
    repeat constructor;
    eexists; (split; [reflexivity |]); (split; [reflexivity |]);
    first [left; reflexivity | right; reflexivity].
Qed.

Lemma content_entries_are_globs_witness :
  exists cfg entries,
    load daisyui_host part_000 = Some cfg
    /\ get cfg "content" = Some (VArr entries)
    /\ Forall (fun e => exists s, e = VStr s
                         /\ starts_with "./" s = true
                         /\ (ends_with "*.html" s = true
                             \/ ends_with "*.js" s = true)) entries.
Proof.
  apply (content_entries_are_globs daisyui_host (VNative "daisyui")).
  - reflexivity.
  - simpl. right. right. left. reflexivity.
Defined.

(** C6: in every document the only key of [theme] is [extend], so colors,
    fonts and spacing are customized under [theme.extend] and never directly
    under [theme]; in the resolved theme a token named under [theme.extend]
    takes the document's value and every other token keeps the tool's
    default. *)
Theorem tokens_only_extended :
  forall (h : host) (p : value), h "daisyui" = Some p ->
  forall d, In d documents ->
  exists cfg theme,
    load h d = Some cfg
    /\ get cfg "theme" = Some theme
    /\ keys theme = ["extend"]
    /\ Forall (fun c => get theme c = None) token_categories
    /\ (forall defaults c t v,
          get_path theme ["extend"; c; t] = Some v ->
          resolve_token defaults theme c t = Some v)
    /\ (forall defaults c t,
          get_path theme ["extend"; c; t] = None ->
          resolve_token defaults theme c t = get_path defaults [c; t]).
Proof.
  intros h p Hp d Hd.
  each_member Hd; run_document Hp; do 2 eexists;
    (split; [reflexivity |]); (split; [reflexivity |]);
    (split; [reflexivity |]);
    (split; [repeat constructor |]);
    (split; [intros; now apply resolve_extended |]);
    intros defaults c t Hnone; apply resolve_frame; try assumption;
    intros k [<- | []]; reflexivity.
Qed.

Lemma tokens_only_extended_witness :
  exists cfg theme,
    load daisyui_host part_001 = Some cfg
    /\ get cfg "theme" = Some theme
    /\ keys theme = ["extend"]
    /\ Forall (fun c => get theme c = None) token_categories
    /\ (forall defaults c t v,
          get_path theme ["extend"; c; t] = Some v ->
          resolve_token defaults theme c t = Some v)
    /\ (forall defaults c t,
          get_path theme ["extend"; c; t] = None ->
          resolve_token defaults theme c t = get_path defaults [c; t]).
Proof.
  apply (tokens_only_extended daisyui_host (VNative "daisyui")).
  - reflexivity.
  - simpl. right. right. right. left. reflexivity.
Defined.

(** Against defaults that hold a gray and a spacing token, [part_001]
    overrides nothing of them and adds its own tokens. *)
Example resolve_part_001 :
  let defaults :=
    VObj [("colors", VObj [("gray", VStr "#6b7280")]);
          ("spacing", VObj [("96", VStr "24rem")])] in
  option_map
    (fun cfg =>
       match get cfg "theme" with
       | Some theme =>
           [resolve_token defaults theme "colors" "gray";
            resolve_token defaults theme "colors" "muted";
            resolve_token defaults theme "spacing" "96";
            resolve_token defaults theme "spacing" "128"]
       | None => []
       end)
    (load bare_host part_001)
  = Some [Some (VStr "#6b7280"); Some (VStr "#6B7280");
          Some (VStr "24rem"); Some (VStr "32rem")].
Proof. reflexivity. Qed.

(** C7: the keys of [theme.extend] are among [colors], [fontFamily] and
    [spacing] in every document. *)
Theorem extend_keys_are_token_categories :
  forall (h : host) (p : value), h "daisyui" = Some p ->
  forall d, In d documents ->
  exists cfg ext,
    load h d = Some cfg
    /\ get_path cfg ["theme"; "extend"] = Some ext
    /\ is_mapping ext = true
    /\ Forall (fun k => In k token_categories) (keys ext).
Proof.
  intros h p Hp d Hd.
  each_member Hd; run_document Hp; do 2 eexists;
    (split; [reflexivity |]); (split; [reflexivity |]);
    (split; [reflexivity |]);
    repeat constructor; simpl; tauto.
Qed.

Lemma extend_keys_are_token_categories_witness :
  exists cfg ext,
    load daisyui_host part_001 = Some cfg
    /\ get_path cfg ["theme"; "extend"] = Some ext
    /\ is_mapping ext = true
    /\ Forall (fun k => In k token_categories) (keys ext).
Proof.
  apply (extend_keys_are_token_categories daisyui_host (VNative "daisyui")).
  - reflexivity.
  - simpl. right. right. right. left. reflexivity.
Defined.

(** C8, as stated, fails: two evaluations of the first document of
    [tailwind.config.js] under hosts that resolve [daisyui] differently
    export different values. *)
Lemma exports_depend_on_host :
  load daisyui_host tailwind_config <> load patched_host tailwind_config
  /\ ~ (forall d, In d documents ->
        forall h1 h2 m1 m2, exec h1 d m1 = exec h2 d m2).
Proof.
  split.
  - vm_compute. discriminate.
  - intros H.
    specialize (H tailwind_config (or_introl eq_refl)
                  daisyui_host patched_host
                  {| exports := VObj [] |} {| exports := VObj [] |}).
    vm_compute in H. discriminate H.
Qed.

(** C8, amended: running a document never reads the module object it
    assigns to, and the exported value depends on the host only through
    what [require("daisyui")] resolves to: the three documents that register
    no plugin export the same value under any two hosts, and the first
    document of [tailwind.config.js] does so under any two hosts that
    resolve [daisyui] alike. *)
Theorem exports_determined :
  forall d, In d documents ->
  forall (h1 h2 : host) (m1 m2 : module_obj),
    In d plain_documents \/ h1 "daisyui" = h2 "daisyui" ->
    exec h1 d m1 = exec h2 d m2.
Proof.
  intros d Hd h1 h2 m1 m2 [Hplain | Hsame].
  - destruct d as [e]. simpl.
    rewrite (eval_without_calls e h1 h2); [reflexivity |].
    exact (plain_documents_without_calls _ Hplain).
  - destruct Hd as [<- | Hplain].
    + unfold exec; cbn. rewrite Hsame. reflexivity.
    + destruct d as [e]. simpl.
      rewrite (eval_without_calls e h1 h2); [reflexivity |].
      exact (plain_documents_without_calls _ Hplain).
Qed.

Lemma exports_determined_witness :
  exec daisyui_host tailwind_config {| exports := VObj [] |}
  = exec lenient_host tailwind_config {| exports := VStr "stale" |}.
Proof.
  apply (exports_determined tailwind_config).
  - simpl. left. reflexivity.
  - right. reflexivity.
Defined.

(** C9: every leaf under [theme.extend.colors], flat or inside a shade
    mapping, is ['#'] followed by exactly six hexadecimal digits. *)
Theorem colors_are_hex :
  forall (h : host) (p : value), h "daisyui" = Some p ->
  forall d, In d documents ->
  exists cfg,
    load h d = Some cfg
    /\ Forall (fun v => exists s, v = VStr s /\ is_hex_color s = true)
         (color_values cfg).
Proof.
  intros h p Hp d Hd.
  each_member Hd; run_document Hp; eexists;
    (split; [reflexivity |]);
    repeat constructor; eexists; split; reflexivity.
Qed.

Lemma colors_are_hex_witness :
  exists cfg,
    load daisyui_host part_001 = Some cfg
    /\ Forall (fun v => exists s, v = VStr s /\ is_hex_color s = true)
         (color_values cfg).
Proof.
  apply (colors_are_hex daisyui_host (VNative "daisyui")).
  - reflexivity.
  - simpl. right. right. right. left. reflexivity.
Defined.

(** The number of colors each document defines. *)
Example color_counts :
  map (fun d => option_map (fun cfg => List.length (color_values cfg))
                  (load daisyui_host d)) documents
  = [Some 0; Some 3; Some 12; Some 16].
Proof. reflexivity. Qed.

(** C10: every [content] sequence is non-empty, has pairwise distinct
    entries and starts with ["./templates/**/*.html"]. *)
Theorem content_distinct_templates_first :
  forall (h : host) (p : value), h "daisyui" = Some p ->
  forall d, In d documents ->
  exists cfg entries,
    load h d = Some cfg
    /\ get cfg "content" = Some (VArr entries)
    /\ entries <> []
    /\ NoDup entries
    /\ hd_error entries = Some (VStr "./templates/**/*.html").
Proof.
  intros h p Hp d Hd.
  each_member Hd; run_document Hp; do 2 eexists;
    (split; [reflexivity |]); (split; [reflexivity |]);
    (split; [discriminate |]);
    (split; [| reflexivity]);
    repeat constructor; simpl; intuition discriminate.
Qed.

Lemma content_distinct_templates_first_witness :
  exists cfg entries,
    load daisyui_host part_001 = Some cfg
    /\ get cfg "content" = Some (VArr entries)
    /\ entries <> []
    /\ NoDup entries
    /\ hd_error entries = Some (VStr "./templates/**/*.html").
Proof.
  apply (content_distinct_templates_first daisyui_host (VNative "daisyui")).
  - reflexivity.
  - simpl. right. right. right. left. reflexivity.
Defined.

End Claims.

(* ================================================================== *)
(** ** Evaluation keeps what is written *)
(* ================================================================== *)

Module ReadingFacts.
Import JS Config Shape Reading Facts.

Lemma expr_induction (P : expr -> Prop) :
  (forall s, P (Str s)) ->
  (forall n, P (Num n)) ->
  (forall es, Forall P es -> P (Arr es)) ->
  (forall ps, Forall (fun p => P (snd p)) ps -> P (Obj ps)) ->
  (forall f args, Forall P args -> P (Call f args)) ->
  forall e, P e.
Proof.
  intros HS HN HA HO HC. fix IH 1.
  intros [s | n | es | ps | f args].
  - apply HS.
  - apply HN.
  - apply HA. induction es as [| x r IHr]; constructor; [apply IH | exact IHr].
  - apply HO. induction ps as [| [k x] r IHr]; constructor;
      [apply IH | exact IHr].
  - apply HC. induction args as [| x r IHr]; constructor;
      [apply IH | exact IHr].
Qed.

Lemma eval_Arr :
  forall h es, eval h (Arr es) = option_map VArr (eval_each h es).
Proof.
  intros h es. simpl. f_equal.
  induction es as [| x r IHr]; simpl; [reflexivity |].
  now rewrite IHr.
Qed.

Lemma eval_Obj :
  forall h ps,
    eval h (Obj ps)
    = option_map (fun kvs => VObj (build_object kvs)) (eval_fields h ps).
Proof.
  intros h ps. simpl. f_equal.
  induction ps as [| [k x] r IHr]; simpl; [reflexivity |].
  now rewrite IHr.
Qed.

Lemma literals_Arr :
  forall es, literals (Arr es) = literals_from Index 0 es.
Proof.
  intros es. simpl. generalize 0.
  induction es as [| x r IHr]; intros i; simpl; [reflexivity |].
  now rewrite IHr.
Qed.

Lemma literals_Obj :
  forall ps, literals (Obj ps) = literals_fields ps.
Proof.
  intros ps. simpl.
  induction ps as [| [k x] r IHr]; simpl; [reflexivity |].
  now rewrite IHr.
Qed.

Lemma literals_Call :
  forall f args, literals (Call f args) = literals_from (Arg f) 0 args.
Proof.
  intros f args. simpl. generalize 0.
  induction args as [| x r IHr]; intros i; simpl; [reflexivity |].
  now rewrite IHr.
Qed.

(** A literal of a list stands under the segment of its position. *)
Lemma literals_from_inv :
  forall mk es i p l,
    In (p, l) (literals_from mk i es) ->
    exists j x q,
      p = mk (i + j) :: q /\ nth_error es j = Some x /\ In (q, l) (literals x).
Proof.
  intros mk es. induction es as [| x r IHr]; intros i p l Hin; simpl in Hin.
  - contradiction.
  - apply in_app_or in Hin as [Hin | Hin].
    + apply in_map_iff in Hin as [[q l'] [Heq Hq]].
      unfold under in Heq. simpl in Heq. inversion Heq; subst.
      exists 0, x, q. rewrite Nat.add_0_r. auto.
    + destruct (IHr _ _ _ Hin) as (j & y & q & -> & Hn & Hq).
      exists (S j), y, q. rewrite Nat.add_succ_r. auto.
Qed.

Lemma eval_each_nth :
  forall h es vs j x,
    eval_each h es = Some vs -> nth_error es j = Some x ->
    exists v, nth_error vs j = Some v /\ eval h x = Some v.
Proof.
  intros h es. induction es as [| y r IHr]; intros vs j x He Hn.
  - destruct j; discriminate.
  - simpl in He. destruct (eval h y) as [vy |] eqn:Hy; [| discriminate].
    destruct (eval_each h r) as [vr |] eqn:Hr; [| discriminate].
    inversion He; subst. destruct j as [| j]; simpl in *.
    + inversion Hn; subst. eauto.
    + eapply IHr; eauto.
Qed.

Lemma mem_In :
  forall k l, mem k l = true <-> In k l.
Proof.
  intros k l. unfold mem. rewrite existsb_exists. split.
  - intros (x & Hx & He). apply String.eqb_eq in He. now subst.
  - intros H. exists k. split; [assumption | apply String.eqb_refl].
Qed.

(** A property with a new name goes last. *)
Lemma define_prop_new :
  forall ps k v, ~ In k (map fst ps) -> define_prop ps k v = ps ++ [(k, v)].
Proof.
  induction ps as [| [k' v'] r IH]; intros k v Hk; simpl in *.
  - reflexivity.
  - destruct (String.eqb_spec k' k) as [-> | _].
    + exfalso. apply Hk. now left.
    + rewrite IH; [reflexivity |]. intros H. apply Hk. now right.
Qed.

Lemma distinct_names_NoDup :
  forall l, distinct_names l = true <-> NoDup l.
Proof.
  induction l as [| k r IH]; simpl.
  - split; [constructor | reflexivity].
  - rewrite andb_true_iff, negb_true_iff, IH. split.
    + intros [Hm Hr]. constructor; [| assumption].
      intros Hin. apply mem_In in Hin. congruence.
    + intros H. inversion H; subst. split; [| assumption].
      destruct (mem k r) eqn:Hm; [| reflexivity].
      apply mem_In in Hm. contradiction.
Qed.

(** Properties with pairwise distinct names are kept as they are written,
    in the order they are written. *)
Lemma build_object_distinct :
  forall kvs, NoDup (map fst kvs) -> build_object kvs = kvs.
Proof.
  intros kvs. unfold build_object.
  enough (H : forall acc, NoDup (map fst (acc ++ kvs)) ->
            fold_left (fun a kv => define_prop a (fst kv) (snd kv)) kvs acc
            = acc ++ kvs) by (intros Hn; apply (H [] Hn)).
  induction kvs as [| [k v] r IH]; intros acc Hn; simpl.
  - now rewrite app_nil_r.
  - rewrite define_prop_new.
    + rewrite IH; rewrite <- app_assoc; [reflexivity | exact Hn].
    + rewrite map_app in Hn. simpl in Hn.
      apply NoDup_remove_2 in Hn. intros Hin. apply Hn.
      apply in_or_app. now left.
Qed.

Lemma eval_fields_names :
  forall h ps kvs, eval_fields h ps = Some kvs -> map fst kvs = names ps.
Proof.
  intros h ps. induction ps as [| [k x] r IHr]; intros kvs He; simpl in He.
  - inversion He. reflexivity.
  - destruct (eval h x) as [v |]; [| discriminate].
    destruct (eval_fields h r) as [kr |]; [| discriminate].
    inversion He; subst. simpl. f_equal. now apply IHr.
Qed.

Lemma fields_read_back :
  forall h ps kvs p l,
    Forall (fun f => reads_back (snd f)) ps ->
    NoDup (names ps) ->
    forallb (fun f => distinct_keys (snd f)) ps = true ->
    eval_fields h ps = Some kvs ->
    In (p, l) (literals_fields ps) -> readable p = true ->
    exists k q,
      p = Field k :: q /\ In k (names ps)
      /\ match lookup kvs k with
         | Some x => value_at x q
         | None => None
         end = eval h l.
Proof.
  intros h ps. induction ps as [| [k x] r IHr];
    intros kvs p l Hall Hnd Hdk He Hin Hr; simpl in *.
  - contradiction.
  - destruct (eval h x) as [vx |] eqn:Hx; [| discriminate].
    destruct (eval_fields h r) as [kr |] eqn:Hkr; [| discriminate].
    inversion He; subst; clear He.
    inversion Hall as [| ? ? Px Pr]; subst.
    inversion Hnd as [| ? ? Hk Hnr]; subst.
    apply andb_true_iff in Hdk as [Hdx Hdr].
    apply in_app_or in Hin as [Hin | Hin].
    + apply in_map_iff in Hin as [[q l'] [Heq Hq]].
      unfold under in Heq. simpl in Heq. inversion Heq; subst.
      exists (key_name k), q. split; [reflexivity |]. split; [now left |].
      simpl. rewrite String.eqb_refl.
      simpl in Hr. exact (Px h vx Hdx Hx q l Hq Hr).
    + destruct (IHr kr p l Pr Hnr Hdr eq_refl Hin Hr)
        as (k' & q & -> & Hk' & Hread).
      exists k', q. split; [reflexivity |]. split; [now right |].
      simpl. destruct (String.eqb_spec (key_name k) k') as [Heq | _].
      * exfalso. apply Hk. unfold names in Hk'. now rewrite Heq.
      * exact Hread.
Qed.

(** A value written at a place is the value read at that place, as long
    as no object literal names a property twice. *)
Lemma eval_reads_back :
  forall e, reads_back e.
Proof.
  induction e as [s | n | es IH | ps IH | f args IH] using expr_induction;
    intros h v Hd He p l Hin Hr.
  - simpl in *. destruct Hin as [Heq | []]. inversion Heq; subst. exact (eq_sym He).
  - simpl in *. destruct Hin as [Heq | []]. inversion Heq; subst. exact (eq_sym He).
  - rewrite eval_Arr in He. rewrite literals_Arr in Hin.
    destruct (eval_each h es) as [vs |] eqn:Hvs; [| discriminate].
    inversion He; subst; clear He.
    destruct (literals_from_inv _ _ _ _ _ Hin) as (j & x & q & -> & Hn & Hq).
    destruct (eval_each_nth _ _ _ _ _ Hvs Hn) as (vx & Hvn & Hx).
    simpl. rewrite Hvn.
    rewrite Forall_forall in IH.
    apply (IH x (nth_error_In _ _ Hn) h vx); try assumption.
    simpl in Hd. rewrite forallb_forall in Hd.
    apply Hd. exact (nth_error_In _ _ Hn).
  - rewrite eval_Obj in He. rewrite literals_Obj in Hin.
    destruct (eval_fields h ps) as [kvs |] eqn:Hkvs; [| discriminate].
    inversion He; subst; clear He.
    simpl in Hd. apply andb_true_iff in Hd as [Hnames Hdk].
    apply distinct_names_NoDup in Hnames.
    rewrite build_object_distinct
      by (rewrite (eval_fields_names _ _ _ Hkvs); exact Hnames).
    destruct (fields_read_back h ps kvs p l IH Hnames Hdk Hkvs Hin Hr)
      as (k & q & -> & _ & Hread).
    simpl. exact Hread.
  - rewrite literals_Call in Hin.
    destruct (literals_from_inv _ _ _ _ _ Hin) as (j & x & q & -> & _ & _).
    discriminate Hr.
Qed.

End ReadingFacts.

(* ================================================================== *)
(** ** Further properties of the documents *)
(* ================================================================== *)

Module Documents.
Import JS Config Shape Reading Facts ReadingFacts.

(** X1: the first document of [tailwind.config.js] exports a configuration
    exactly when the host resolves [daisyui]; the configuration then has
    the keys [content], [darkMode], [theme], [plugins] and its [plugins] is
    the one-element sequence of the object the host resolved.  When the
    host cannot resolve [daisyui] the document exports nothing. *)
Theorem tailwind_config_plugin :
  forall h : host,
    match h "daisyui" with
    | Some p =>
        exists cfg,
          load h tailwind_config = Some cfg
          /\ keys cfg = ["content"; "darkMode"; "theme"; "plugins"]
          /\ get cfg "plugins" = Some (VArr [p])
    | None => load h tailwind_config = None
    end.
Proof.
  intros h. destruct (h "daisyui") as [p |] eqn:Hp.
  - run_document Hp. eexists. repeat split.
  - now apply tailwind_config_needs_daisyui.
Qed.

(** X2: the three other documents export a configuration under every
    host, also one with no package installed: its keys are [content],
    [theme], [plugins], it has no [darkMode], its [plugins] is empty (the
    [require] lines of [part_001] are comments), and all its leaves are
    strings. *)
Theorem plain_documents_export :
  forall (h : host) d, In d plain_documents ->
  exists cfg,
    load h d = Some cfg
    /\ keys cfg = ["content"; "theme"; "plugins"]
    /\ get cfg "darkMode" = None
    /\ get cfg "plugins" = Some (VArr [])
    /\ Forall (fun v => is_string v = true) (leaf_values cfg).
Proof.
  intros h d Hd.
  each_member Hd; unfold load, exec; cbn; eexists;
    (split; [reflexivity |]); (split; [reflexivity |]);
    (split; [reflexivity |]); (split; [reflexivity |]);
    repeat constructor.
Qed.

Lemma plain_documents_export_witness :
  exists cfg,
    load bare_host part_001 = Some cfg
    /\ keys cfg = ["content"; "theme"; "plugins"]
    /\ get cfg "darkMode" = None
    /\ get cfg "plugins" = Some (VArr [])
    /\ Forall (fun v => is_string v = true) (leaf_values cfg).
Proof.
  apply (plain_documents_export bare_host part_001).
  simpl. right. right. left. reflexivity.
Defined.

(** X3: no object literal of any document names a property twice, so
    nothing written is overwritten: every string written at a place of a
    document is the value read at that place of the exported
    configuration. *)
Theorem written_values_read_back :
  forall (h : host) (pl : value), h "daisyui" = Some pl ->
  forall d, In d documents ->
  exists cfg,
    load h d = Some cfg
    /\ distinct_keys (rhs d) = true
    /\ forall p s, In (p, Str s) (literals (rhs d)) -> readable p = true ->
       value_at cfg p = Some (VStr s).
Proof.
  intros h pl Hp d Hd.
  assert (Hload : exists cfg, load h d = Some cfg)
    by (each_member Hd; run_document Hp; eexists; reflexivity).
  assert (Hdist : distinct_keys (rhs d) = true)
    by (each_member Hd; reflexivity).
  destruct Hload as [cfg Hcfg]. exists cfg.
  split; [exact Hcfg |]. split; [exact Hdist |].
  intros p s Hin Hr. rewrite load_eval in Hcfg.
  exact (eval_reads_back (rhs d) h cfg Hdist Hcfg p (Str s) Hin Hr).
Qed.

Lemma written_values_read_back_witness :
  exists cfg,
    load daisyui_host part_001 = Some cfg
    /\ distinct_keys (rhs part_001) = true
    /\ forall p s, In (p, Str s) (literals (rhs part_001)) ->
       readable p = true -> value_at cfg p = Some (VStr s).
Proof.
  apply (written_values_read_back daisyui_host (VNative "daisyui")).
  - reflexivity.
  - simpl. right. right. right. left. reflexivity.
Defined.

(** X4: every font stack under [theme.extend.fontFamily] starts with
    [Inter] and ends with the generic family [sans-serif]. *)
Theorem font_stacks_end_generic :
  forall (h : host) (pl : value), h "daisyui" = Some pl ->
  forall d, In d documents ->
  exists cfg,
    load h d = Some cfg
    /\ Forall (fun stack =>
                exists middle,
                  stack = VArr (VStr "Inter" :: middle ++ [VStr "sans-serif"]))
         (font_stacks cfg).
Proof.
  intros h pl Hp d Hd.
  each_member Hd; run_document Hp; eexists; (split; [reflexivity |]);
    repeat constructor.
  all: exists [VStr "system-ui"]; reflexivity.
Qed.

Lemma font_stacks_end_generic_witness :
  exists cfg,
    load daisyui_host part_000 = Some cfg
    /\ Forall (fun stack =>
                exists middle,
                  stack = VArr (VStr "Inter" :: middle ++ [VStr "sans-serif"]))
         (font_stacks cfg).
Proof.
  apply (font_stacks_end_generic daisyui_host (VNative "daisyui")).
  - reflexivity.
  - simpl. right. right. left. reflexivity.
Defined.

(** X5: every property name of a shade mapping under
    [theme.extend.colors] is [DEFAULT] or one of the shades 50, 100, 200,
    ..., 900. *)
Theorem shade_names_in_scale :
  forall (h : host) (pl : value), h "daisyui" = Some pl ->
  forall d, In d documents ->
  exists cfg,
    load h d = Some cfg
    /\ Forall (fun k => is_shade_name k = true) (shade_names cfg).
Proof.
  intros h pl Hp d Hd.
  each_member Hd; run_document Hp; eexists; (split; [reflexivity |]);
    repeat constructor.
Qed.

Lemma shade_names_in_scale_witness :
  exists cfg,
    load daisyui_host part_001 = Some cfg
    /\ Forall (fun k => is_shade_name k = true) (shade_names cfg).
Proof.
  apply (shade_names_in_scale daisyui_host (VNative "daisyui")).
  - reflexivity.
  - simpl. right. right. right. left. reflexivity.
Defined.

(** X6: the [primary] palettes of [part_000] and [part_001] define every
    shade of the scale and agree on each of them, under any hosts; the
    [DEFAULT] of [part_001] is the flat [primary] of the second document of
    [tailwind.config.js]. *)
Theorem primary_palette_shared :
  forall h0 h1 h2 : host,
  exists c0 c1 c2,
    load h0 part_000 = Some c0
    /\ load h1 part_001 = Some c1
    /\ load h2 tailwind_config_colors = Some c2
    /\ Forall (fun n =>
                exists hex,
                  get_path c0 ["theme"; "extend"; "colors"; "primary"; decimal n]
                  = Some (VStr hex)
                  /\ get_path c1
                       ["theme"; "extend"; "colors"; "primary"; decimal n]
                     = Some (VStr hex))
         shade_scale
    /\ get_path c1 ["theme"; "extend"; "colors"; "primary"; "DEFAULT"]
       = get_path c2 ["theme"; "extend"; "colors"; "primary"].
Proof.
  intros h0 h1 h2. unfold load, exec. cbn. do 3 eexists.
  do 3 (split; [reflexivity |]).
  split; [| reflexivity].
  repeat constructor; eexists; split; reflexivity.
Qed.

(** X7: every addition to the spacing scale follows the rule of the scale,
    a key [4 * q] standing for [q] rem. *)
Theorem spacing_follows_scale :
  forall d, In d documents ->
  forall k e, In (k, e) (spacing_entries (rhs d)) ->
  exists q : N, k = decimal (4 * q) /\ e = Str (decimal q ++ "rem").
Proof.
  intros d Hd k e Hin.
  each_member Hd; cbn in Hin; try contradiction.
  destruct Hin as [Heq | [Heq | []]]; inversion Heq; subst.
  - exists 32%N. split; reflexivity.
  - exists 36%N. split; reflexivity.
Qed.

Lemma spacing_follows_scale_witness :
  exists q : N, "128" = decimal (4 * q) /\ Str "32rem" = Str (decimal q ++ "rem").
Proof.
  apply (spacing_follows_scale part_001).
  - simpl. right. right. right. left. reflexivity.
  - vm_compute. left. reflexivity.
Defined.

(** X8: every [content] pattern descends into all subdirectories: it ends
    with ["/**/*.html"] or ["/**/*.js"]. *)
Theorem content_patterns_recursive :
  forall (h : host) (pl : value), h "daisyui" = Some pl ->
  forall d, In d documents ->
  exists cfg,
    load h d = Some cfg
    /\ content_entries cfg <> []
    /\ Forall (fun e => exists s, e = VStr s
                         /\ (ends_with "/**/*.html" s = true
                             \/ ends_with "/**/*.js" s = true))
         (content_entries cfg).
Proof.
  intros h pl Hp d Hd.
  each_member Hd; run_document Hp; eexists; (split; [reflexivity |]);
    (split; [discriminate |]);
    repeat constructor; eexists; (split; [reflexivity |]);
    first [left; reflexivity | right; reflexivity].
Qed.

Lemma content_patterns_recursive_witness :
  exists cfg,
    load daisyui_host part_001 = Some cfg
    /\ content_entries cfg <> []
    /\ Forall (fun e => exists s, e = VStr s
                         /\ (ends_with "/**/*.html" s = true
                             \/ ends_with "/**/*.js" s = true))
         (content_entries cfg).
Proof.
  apply (content_patterns_recursive daisyui_host (VNative "daisyui")).
  - reflexivity.
  - simpl. right. right. right. left. reflexivity.
Defined.

End Documents.
